(** * The deployment finaliser of [swerex.deployment.abstract]

    A shallow embedding of [AbstractDeployment.__del__] and of the completion
    callback [_log_task_done] it attaches, with the properties of the
    teardown protocol stated over it.

    The finaliser talks to four collaborators it does not own: the
    interpreter ([sys.modules], [sys.meta_path]), the deployment's logger,
    [asyncio] (the event loop, tasks, [wait_for]) and the deployment's own
    [stop()] coroutine.  Their answers are the fields of a [World] and of a
    [Deployment]; everything the finaliser does to them is recorded in a
    trace of [event]s.  Python exceptions carry their class, because the
    handlers of the source are class-specific ([except RuntimeError],
    [except asyncio.TimeoutError], [except Exception]). *)

From Stdlib Require Import List String Bool Arith Lia QArith.
Import ListNotations.
Close Scope Q_scope.
Open Scope string_scope.
Open Scope list_scope.

(** ** Python exceptions *)

Module Py.

(** Classes below [Exception].  [asyncio.TimeoutError] and [RuntimeError]
    are the two the source names; every other subclass of [Exception]
    ([AttributeError], [ValueError], a warning turned into an error, ...) is
    an [OtherException] with its class name. *)
Inductive exception_class : Type :=
| RuntimeError
| TimeoutError
| OtherException (name : string).

(** An instance of [Exception]: its class and its [str()]. *)
Record exception : Type := mkException
  { exc_class : exception_class;
    exc_str : string }.

(** What a [raise] can carry.  [asyncio.CancelledError], [SystemExit] and
    [KeyboardInterrupt] derive from [BaseException] and not from
    [Exception].  [CancelledError] is what [Task.exception()] raises on a
    cancelled task and what awaiting a cancelled task raises; the other two
    leave [run_until_complete] when the awaited coroutine raises them.  (A
    [KeyboardInterrupt] arriving between two statements of the finaliser is
    not represented.) *)
Inductive base_exception : Type :=
| CancelledError
| SystemExit
| KeyboardInterrupt
| Exc (e : exception).

Definition isinstance_Exception (b : base_exception) : bool :=
  match b with
  | Exc _ => true
  | _ => false
  end.

Definition isinstance_RuntimeError (b : base_exception) : bool :=
  match b with
  | Exc (mkException RuntimeError _) => true
  | _ => false
  end.

Definition isinstance_TimeoutError (b : base_exception) : bool :=
  match b with
  | Exc (mkException TimeoutError _) => true
  | _ => false
  end.

(** [str(e)], as interpolated by the f-strings of the source. *)
Definition str (b : base_exception) : string :=
  match b with
  | Exc e => exc_str e
  | _ => ""
  end.

End Py.
Import Py.

(** ** Observable actions *)

Inductive level : Type := DEBUG | WARNING | ERROR.

Inductive event : Type :=
| Log (l : level) (m : string)        (* self.logger.<l>(m) returned *)
| LogFailed (l : level) (m : string)  (* self.logger.<l>(m) raised *)
| Printed (m : string)                (* print(m) *)
| GetEventLoop                        (* asyncio.get_event_loop() *)
| StopCalled                          (* self.stop(): the coroutine is created *)
| CreateTask                          (* loop.create_task(coro) *)
| AddDoneCallback                     (* task.add_done_callback(_log_task_done) *)
| WaitFor (timeout : Q)               (* asyncio.wait_for(coro, timeout=...) *)
| RunUntilComplete (elapsed : Q).     (* loop.run_until_complete(...), blocking *)

Definition trace : Type := list event.

(** ** A monad for code that raises and leaves a trace *)

Inductive result (A : Type) : Type :=
| Ret (a : A)
| Raise (e : base_exception).
Arguments Ret {A} a.
Arguments Raise {A} e.

Definition M (A : Type) : Type := (result A * trace)%type.

Definition ret {A} (a : A) : M A := (Ret a, []).

Definition raise {A} (e : base_exception) : M A := (Raise e, []).

Definition emit (ev : event) : M unit := (Ret tt, [ev]).

Definition bind {A B} (m : M A) (f : A -> M B) : M B :=
  match m with
  | (Ret a, t) => let (r, t') := f a in (r, t ++ t')
  | (Raise e, t) => (Raise e, t)
  end.

Notation "x <- m ;; k" := (bind m (fun x => k))
  (at level 61, m at next level, right associativity).
Notation "m ;; k" := (bind m (fun _ => k))
  (at level 61, right associativity).

(** One [except C as e: h] clause: the class test and the handler. *)
Definition clause (A : Type) : Type :=
  ((base_exception -> bool) * (base_exception -> M A))%type.

Fixpoint select_clause {A} (e : base_exception) (cs : list (clause A))
  : option (base_exception -> M A) :=
  match cs with
  | [] => None
  | (test, h) :: cs' => if test e then Some h else select_clause e cs'
  end.

(** [try: body / except ...]: the first clause whose class matches handles
    the exception; with no match the exception propagates. *)
Definition try_except {A} (body : M A) (cs : list (clause A)) : M A :=
  match body with
  | (Ret a, t) => (Ret a, t)
  | (Raise e, t) =>
      match select_clause e cs with
      | Some h => let (r, t') := h e in (r, t ++ t')
      | None => (Raise e, t)
      end
  end.

Definition outcome {A} (m : M A) : result A := fst m.
Definition events {A} (m : M A) : trace := snd m.

(** ** The collaborators *)

(** A coroutine as seen from the loop that drives it.
    - [Finishes d r]: it gives control back to the loop while it works, ends
      by itself after [d] time units, returning ([r = None]) or raising, and
      ends at once with [CancelledError] if it is cancelled before.
    - [Hangs]: the same, but it never ends by itself.
    - [Blocks d r]: it runs to its end in [d] time units without ever giving
      control back to the loop, so no timer of the loop fires meanwhile.
    - [Lingers d c r]: left alone it returns after [d]; cancelled before, it
      needs [c] more time units and then ends with [r]: [Some CancelledError]
      when it lets the cancellation through after its clean-up, [None] when
      it swallows the cancellation and returns, another exception when its
      clean-up fails.
    A coroutine that never ends once cancelled, which keeps
    [run_until_complete] from returning at all, is not represented. *)
Inductive Coroutine : Type :=
| Finishes (duration : Q) (raised : option base_exception)
| Hangs
| Blocks (duration : Q) (raised : option base_exception)
| Lingers (duration : Q) (cleanup : Q) (raised : option base_exception).

(** An awaitable that is known to end. *)
Record Bounded : Type := mkBounded
  { elapsed : Q;
    raised : option base_exception }.

Definition asyncio_TimeoutError : exception := mkException TimeoutError "".

(** What [asyncio.wait_for] makes of the end of a coroutine it has
    cancelled: [CancelledError] becomes [TimeoutError]; a normal return or
    any other exception is passed on as it is. *)
Definition after_cancellation (r : option base_exception) : option base_exception :=
  match r with
  | Some CancelledError => Some (Exc asyncio_TimeoutError)
  | _ => r
  end.

(** [asyncio.wait_for(coro, timeout)] driven by a loop: the coroutine's own
    result when it ends before the timer fires.  When the timer fires first
    the coroutine is cancelled and [wait_for] waits for it to end, however
    long that takes.  The timer is a callback of the loop: it cannot fire
    while the coroutine keeps control, and when both are due the timer
    wins. *)
Definition wait_for (c : Coroutine) (timeout : Q) : Bounded :=
  match c with
  | Finishes d r =>
      if Qle_bool timeout d
      then mkBounded timeout (Some (Exc asyncio_TimeoutError))
      else mkBounded d r
  | Hangs => mkBounded timeout (Some (Exc asyncio_TimeoutError))
  | Blocks d r => mkBounded d r
  | Lingers d c r =>
      if Qle_bool timeout d
      then mkBounded (timeout + c) (after_cancellation r)
      else mkBounded d None
  end.

(** The event loop handed out by [asyncio.get_event_loop()]. *)
Record Loop : Type := mkLoop
  { is_running : bool;
    create_task_error : option exception;
    is_closed : bool }.

(** The places where the source reads [sys.meta_path]. *)
Inductive probe_site : Type :=
| AtEntry         (* line 49 *)
| AtTaskFailure   (* line 92 *)
| AtTimeout       (* line 107 *)
| AtError         (* line 115 *)
| AtCallback.     (* line 79 *)

(** [sys_unloaded]: the [sys] module is gone from [sys.modules] when the
    finaliser is entered, as it is once the interpreter has cleared its
    modules. *)
Record World : Type := mkWorld
  { meta_path_is_None : probe_site -> bool;
    get_event_loop : exception + Loop;
    sys_unloaded : bool }.

(** Lifecycle states of the data model. *)
Inductive State : Type :=
| NotStarted | Starting | Running | Stopping | Stopped | Failed.

(** The live handle owned by a running deployment, as far as a liveness
    query sees it. *)
Record Runtime : Type := mkRuntime
  { runtime_id : nat;
    alive : bool;
    response_time : Q }.

(** A deployment: the attributes the abstract class relies on ([logger],
    [stop]) and the state and runtime its implementers keep. *)
Record Deployment : Type := mkDeployment
  { state : State;
    owned_runtime : option Runtime;
    logger : level -> string -> option exception;
    stop : Coroutine }.

(** ** Primitive calls *)

Definition logger_call (self : Deployment) (l : level) (m : string) : M unit :=
  match logger self l m with
  | None => emit (Log l m)
  | Some e => emit (LogFailed l m) ;; raise (Exc e)
  end.

Definition print (m : string) : M unit := emit (Printed m).

Definition asyncio_get_event_loop (w : World) : M Loop :=
  emit GetEventLoop ;;
  match get_event_loop w with
  | inl e => raise (Exc e)
  | inr loop => ret loop
  end.

Definition self_stop (self : Deployment) : M Coroutine :=
  emit StopCalled ;; ret (stop self).

Definition loop_create_task (loop : Loop) (c : Coroutine) : M unit :=
  emit CreateTask ;;
  match create_task_error loop with
  | Some e => raise (Exc e)
  | None => ret tt
  end.

Definition task_add_done_callback : M unit := emit AddDoneCallback.

Definition asyncio_wait_for (c : Coroutine) (timeout : Q) : M Bounded :=
  emit (WaitFor timeout) ;; ret (wait_for c timeout).

Definition loop_closed_error : exception :=
  mkException RuntimeError "Event loop is closed".

(** [loop.run_until_complete(aw)]: a closed loop refuses at once, without
    driving anything; an open one blocks until the awaitable ends. *)
Definition loop_run_until_complete (loop : Loop) (b : Bounded) : M unit :=
  if is_closed loop then
    emit (RunUntilComplete 0) ;; raise (Exc loop_closed_error)
  else
    emit (RunUntilComplete (elapsed b)) ;;
    match raised b with
    | Some e => raise e
    | None => ret tt
    end.

Definition sys_import_error : exception :=
  mkException (OtherException "ImportError")
    "sys.meta_path is None, Python is likely shutting down".

(** [import sys] (lines 48, 78, 91, 106, 114).  The statement takes the
    module from [sys.modules]; when the module is gone it turns to
    [sys.meta_path], and with [sys.meta_path] set to [None] it raises
    [ImportError].  On line 48 this is decided by the state in which the
    finaliser is entered.  The imports of lines 91, 106 and 114 come after
    the one of line 48 has succeeded in the same call, which leaves the
    module in [sys.modules]; the callback of line 78 is run by the event
    loop, while the modules are loaded. *)
Definition import_sys (w : World) (p : probe_site) : M unit :=
  match p with
  | AtEntry =>
      if sys_unloaded w && meta_path_is_None w AtEntry
      then raise (Exc sys_import_error)
      else ret tt
  | _ => ret tt
  end.

(** [import sys] binds the local name to the module object, so the second
    disjunct of the test on line 49 is never true. *)
Definition sys_is_None : bool := false.

(** [try: self.logger.<l>(m) / except Exception: print(m)] *)
Definition log_or_print (self : Deployment) (l : level) (m : string) : M unit :=
  try_except (logger_call self l m)
             [(isinstance_Exception, fun _ => print m)].

(** ** The completion callback (lines 77-88) *)

Inductive Task : Type :=
| TaskReturned
| TaskFailed (e : exception)
| TaskCancelled.

(** [t.exception()] on a task that is done. *)
Definition task_exception (t : Task) : M (option exception) :=
  match t with
  | TaskReturned => ret None
  | TaskFailed e => ret (Some e)
  | TaskCancelled => raise CancelledError
  end.

Definition fmt_exception (prefix : string) (e : option exception) : string :=
  match e with
  | Some e => prefix ++ exc_str e
  | None => prefix ++ "None"
  end.

Definition _log_task_done (self : Deployment) (w : World) (t : Task) : M unit :=
  import_sys w AtCallback ;;
  if meta_path_is_None w AtCallback then ret tt
  else
    try_except
      (e <- task_exception t ;;
       match e with
       | Some _ =>
           try_except
             (e1 <- task_exception t ;;
              logger_call self ERROR
                (fmt_exception "Error in __del__ cleanup task: " e1))
             [(isinstance_Exception,
               fun _ =>
                 e2 <- task_exception t ;;
                 print (fmt_exception "Error in __del__ cleanup task: " e2))]
       | None => ret tt
       end)
      [(isinstance_Exception, fun _ => ret tt)].

(** ** The finaliser (lines 44-120) *)

Definition msg_notice : string :=
  "Ensuring deployment is stopped because object is deleted".
Definition msg_no_loop : string :=
  "No event loop available in __del__, skipping cleanup".
Definition msg_timeout : string :=
  "Timeout during __del__ cleanup (30s), forcing exit".
Definition msg_task_failed (e : base_exception) : string :=
  "Failed to create cleanup task in __del__: " ++ str e.
Definition msg_error (e : base_exception) : string :=
  "Error during __del__ cleanup: " ++ str e.

(** Lines 71-97: the loop is running. *)
Definition running_branch (self : Deployment) (w : World) (loop : Loop) : M unit :=
  try_except
    (coro <- self_stop self ;;
     loop_create_task loop coro ;;
     task_add_done_callback)
    [(isinstance_Exception,
      fun e =>
        import_sys w AtTaskFailure ;;
        if meta_path_is_None w AtTaskFailure then ret tt
        else log_or_print self ERROR (msg_task_failed e))].

(** Lines 98-120: the loop is not running. *)
Definition idle_branch (self : Deployment) (w : World) (loop : Loop) : M unit :=
  try_except
    (coro <- self_stop self ;;
     aw <- asyncio_wait_for coro 30 ;;
     loop_run_until_complete loop aw)
    [(isinstance_TimeoutError,
      fun _ =>
        import_sys w AtTimeout ;;
        if meta_path_is_None w AtTimeout then ret tt
        else log_or_print self WARNING msg_timeout);
     (isinstance_Exception,
      fun e =>
        import_sys w AtError ;;
        if meta_path_is_None w AtError then ret tt
        else log_or_print self ERROR (msg_error e))].

(** Lines 61-69: [Some loop], or [None] when the handler has returned. *)
Definition scheduler_probe (self : Deployment) (w : World) : M (option Loop) :=
  try_except
    (loop <- asyncio_get_event_loop w ;; ret (Some loop))
    [(isinstance_RuntimeError,
      fun _ => log_or_print self WARNING msg_no_loop ;; ret None)].

Definition __del__ (self : Deployment) (w : World) : M unit :=
  import_sys w AtEntry ;;
  if meta_path_is_None w AtEntry || sys_is_None then ret tt
  else
    log_or_print self DEBUG msg_notice ;;
    found <- scheduler_probe self w ;;
    match found with
    | None => ret tt
    | Some loop =>
        if is_running loop then running_branch self w loop
        else idle_branch self w loop
    end.

(** ** Reading a trace *)

Definition is_StopCalled (ev : event) : bool :=
  match ev with StopCalled => true | _ => false end.
Definition is_CreateTask (ev : event) : bool :=
  match ev with CreateTask => true | _ => false end.
Definition is_RunUntilComplete (ev : event) : bool :=
  match ev with RunUntilComplete _ => true | _ => false end.
Definition is_WaitFor (ev : event) : bool :=
  match ev with WaitFor _ => true | _ => false end.
Definition mentions (m : string) (ev : event) : bool :=
  match ev with
  | Log _ m' | LogFailed _ m' | Printed m' => String.eqb m m'
  | _ => false
  end.

Definition count (p : event -> bool) (t : trace) : nat :=
  List.length (List.filter p t).

(** Calls to [loop.create_task] and to [loop.run_until_complete], whether
    they succeed or raise. *)
Definition scheduler_interactions (t : trace) : nat :=
  count is_CreateTask t + count is_RunUntilComplete t.

(** The messages that reached an output: through the logger, or through
    the [print] that follows a failed logger call. *)
Fixpoint delivered (t : trace) : list (level * string) :=
  match t with
  | [] => []
  | Log l m :: t' => (l, m) :: delivered t'
  | LogFailed l _ :: t' =>
      match t' with
      | Printed m :: t'' => (l, m) :: delivered t''
      | _ => delivered t'
      end
  | _ :: t' => delivered t'
  end.

Definition is_level (l : level) (p : level * string) : bool :=
  match l, fst p with
  | DEBUG, DEBUG | WARNING, WARNING | ERROR, ERROR => true
  | _, _ => false
  end.

Definition delivered_at (l : level) (t : trace) : list string :=
  List.map snd (List.filter (is_level l) (delivered t)).

(** Which of the three scheduler branches left its mark on a trace. *)
Definition took_no_loop (t : trace) : bool := List.existsb (mentions msg_no_loop) t.
Definition took_running (t : trace) : bool := List.existsb is_CreateTask t.
Definition took_idle (t : trace) : bool := List.existsb is_WaitFor t.

(** ** The accessors of a concrete deployment *)

Inductive DeploymentError : Type :=
| DeploymentNotStartedError.

Record IsAliveResponse : Type := mkIsAliveResponse
  { is_alive_flag : bool;
    message : string }.

(** Modelled from the spec: the body of the [runtime] property, which the
    source only declares ([@abstractmethod], with the docstring "Raises:
    DeploymentNotStartedError: If the deployment was not started").  The
    spec: "returns the owned Runtime if state == Running; otherwise fails
    with a not-started error". *)
Definition runtime (self : Deployment) : DeploymentError + Runtime :=
  match state self with
  | Running =>
      match owned_runtime self with
      | Some r => inr r
      | None => inl DeploymentNotStartedError
      end
  | _ => inl DeploymentNotStartedError
  end.

(** Modelled from the spec: the body of [is_alive], abstract in the source.
    The spec: "queries the Runtime for liveness; fails with a not-started
    error if state != Running ... exceeding [the timeout] is reported as not
    alive with a timeout detail". *)
Definition is_alive (self : Deployment) (timeout : option Q)
  : DeploymentError + IsAliveResponse :=
  match runtime self with
  | inl err => inl err
  | inr r =>
      match timeout with
      | Some t =>
          if Qle_bool (response_time r) t
          then inr (mkIsAliveResponse (alive r) "")
          else inr (mkIsAliveResponse false "timeout")
      | None => inr (mkIsAliveResponse (alive r) "")
      end
  end.

(** Modelled from the spec: a deployment as its constructor leaves it
    ("created ... in state NotStarted"). *)
Definition created (lg : level -> string -> option exception) (st : Coroutine)
  : Deployment :=
  mkDeployment NotStarted None lg st.

(** Modelled from the spec: the state a completed [stop()] leaves behind
    ("transitions through Stopping to Stopped ... on an already
    Stopped/NotStarted deployment is a no-op ... releases the owned
    Runtime"). *)
Definition after_stop (self : Deployment) : Deployment :=
  match state self with
  | NotStarted | Stopped => self
  | _ => mkDeployment Stopped None (logger self) (stop self)
  end.

Definition with_state (s : State) (self : Deployment) : Deployment :=
  mkDeployment s (owned_runtime self) (logger self) (stop self).

(** ** Sample collaborators *)

Definition quiet_logger : level -> string -> option exception :=
  fun _ _ => None.

(** [self.logger] was never assigned: every use raises [AttributeError]. *)
Definition missing_logger : level -> string -> option exception :=
  fun _ _ => Some (mkException (OtherException "AttributeError")
                     "object has no attribute 'logger'").

Definition interpreter_up : probe_site -> bool := fun _ => false.
Definition interpreter_down : probe_site -> bool := fun _ => true.

Definition no_current_loop : exception :=
  mkException RuntimeError "There is no current event loop".

Definition idle_loop : Loop := mkLoop false None false.
Definition running_loop : Loop := mkLoop true None false.
Definition closed_loop : Loop := mkLoop false None true.

Definition world_no_loop : World := mkWorld interpreter_up (inl no_current_loop) false.
Definition world_idle : World := mkWorld interpreter_up (inr idle_loop) false.
Definition world_running : World := mkWorld interpreter_up (inr running_loop) false.
Definition world_closed : World := mkWorld interpreter_up (inr closed_loop) false.

(** [sys.meta_path] is [None] while the [sys] module is still loaded. *)
Definition world_down : World := mkWorld interpreter_down (inr idle_loop) false.

(** The interpreter has cleared its modules. *)
Definition world_teardown : World := mkWorld interpreter_down (inr idle_loop) true.

Definition sandbox : Runtime := mkRuntime 1 true 1.

Definition running_deployment (st : Coroutine) : Deployment :=
  mkDeployment Running (Some sandbox) quiet_logger st.

(** ** Vocabulary of the statements *)

(** A coroutine that is still at work when [timeout] has elapsed, gives
    control back to the loop meanwhile and ends at once when cancelled. *)
Definition overruns (c : Coroutine) (timeout : Q) : Prop :=
  match c with
  | Finishes d _ => (timeout <= d)%Q
  | Hangs => True
  | _ => False
  end.

(** The wait under [wait_for] ends in [TimeoutError]. *)
Definition wait_times_out (c : Coroutine) (timeout : Q) : Prop :=
  exists e, raised (wait_for c timeout) = Some (Exc e) /\ exc_class e = TimeoutError.

(** The events of one message: the logger's record, or the failed call
    and the [print] that replaces it. *)
Definition report (self : Deployment) (l : level) (m : string) : trace :=
  events (log_or_print self l m).
Arguments report : simpl never.

(** The events of the debug notice (lines 55-59). *)
Definition notice (self : Deployment) : trace :=
  events (log_or_print self DEBUG msg_notice).

Definition stopped_deployment : Deployment :=
  mkDeployment Stopped None quiet_logger (Finishes 0 None).

Definition fresh_deployment : Deployment :=
  created quiet_logger (Finishes 0 None).

(** What the finaliser does with the scheduler, as a function of the world
    alone. *)
Definition expected_interactions (w : World) : nat :=
  if meta_path_is_None w AtEntry then 0
  else match get_event_loop w with
       | inl _ => 0
       | inr _ => 1
       end.

(** The events of the timeout handler (lines 106-112). *)
Definition timeout_report (self : Deployment) (w : World) : trace :=
  if meta_path_is_None w AtTimeout then []
  else events (log_or_print self WARNING msg_timeout).

Definition task_factory_broken : exception :=
  mkException RuntimeError "Task factory failed".

Definition world_running_no_tasks : World :=
  mkWorld interpreter_up (inr (mkLoop true (Some task_factory_broken) false)) false.

Definition msg_task_error (e : exception) : string :=
  "Error in __del__ cleanup task: " ++ exc_str e.

(** The events of the handler of a failed task creation (lines 91-97). *)
Definition task_failure_report (self : Deployment) (w : World) (e : exception)
  : trace :=
  if meta_path_is_None w AtTaskFailure then []
  else events (log_or_print self ERROR (msg_task_failed (Exc e))).

(** A [stop()] that ends at once in [CancelledError], as one that awaits a
    task it has just cancelled. *)
Definition cancelled_stop : Coroutine := Finishes 0 (Some CancelledError).

(** The events of the handler of any other failure (lines 114-120). *)
Definition error_report (self : Deployment) (w : World) (e : base_exception)
  : trace :=
  if meta_path_is_None w AtError then []
  else events (log_or_print self ERROR (msg_error e)).

(** Events that only write a message, as opposed to calls into [asyncio]
    and into [stop()]. *)
Definition is_logging (ev : event) : bool :=
  match ev with
  | Log _ _ | LogFailed _ _ | Printed _ => true
  | _ => false
  end.

Definition actions (t : trace) : trace :=
  List.filter (fun ev => negb (is_logging ev)) t.

(** [print] is used as a fallback and as nothing else: every failed logger
    call is followed at once by the [print] of the same message, and there
    is no other [print]. *)
Fixpoint print_is_fallback (t : trace) : bool :=
  match t with
  | [] => true
  | LogFailed _ m :: t' =>
      match t' with
      | Printed m' :: t'' => String.eqb m m' && print_is_fallback t''
      | _ => false
      end
  | Printed _ :: _ => false
  | _ :: t' => print_is_fallback t'
  end.

(** What the completion callback delivers for a task. *)
Definition callback_report (w : World) (t : Task) : list (level * string) :=
  match t with
  | TaskFailed e =>
      if meta_path_is_None w AtCallback then [] else [(ERROR, msg_task_error e)]
  | _ => []
  end.

Definition inner_timeout : exception :=
  mkException TimeoutError "sandbox did not answer".

Definition connection_lost : exception :=
  mkException (OtherException "ConnectionError") "connection lost".

(** ** Proof automation *)

Ltac unfold_finaliser :=
  unfold __del__, scheduler_probe, running_branch, idle_branch, _log_task_done,
    log_or_print, logger_call, print, asyncio_get_event_loop, self_stop,
    loop_create_task, task_add_done_callback, asyncio_wait_for,
    loop_run_until_complete, import_sys, task_exception, wait_for,
    after_cancellation, sys_is_None, outcome, events.

Ltac destruct_var x :=
  is_var x;
  lazymatch type of x with
  | base_exception => destruct x
  | exception => destruct x
  | exception_class => destruct x
  | option _ => destruct x
  | Loop => destruct x
  | bool => destruct x
  end.

(** One case split, on what the finaliser consults first. *)
Ltac case_step :=
  match goal with
  | H : ?x = _ |- context [match ?x with _ => _ end] => rewrite H
  | |- context [sys_unloaded ?w && _] => destruct (sys_unloaded w) eqn:?
  | |- context [match meta_path_is_None ?w AtEntry with _ => _ end] =>
      destruct (meta_path_is_None w AtEntry) eqn:?
  | |- context [match logger ?s DEBUG ?m with _ => _ end] =>
      destruct (logger s DEBUG m) eqn:?
  | |- context [match get_event_loop ?w with _ => _ end] =>
      destruct (get_event_loop w) eqn:?
  | |- context [match ?x with _ => _ end] => destruct_var x
  | |- context [isinstance_RuntimeError ?b] => destruct_var b
  | |- context [isinstance_TimeoutError ?b] => destruct_var b
  | |- context [isinstance_Exception ?b] => destruct_var b
  | |- context [match is_running ?l with _ => _ end] =>
      destruct (is_running l) eqn:?
  | |- context [match create_task_error ?l with _ => _ end] =>
      destruct (create_task_error l) eqn:?
  | |- context [match is_closed ?l with _ => _ end] =>
      destruct (is_closed l) eqn:?
  | |- context [match stop ?s with _ => _ end] => destruct (stop s) eqn:?
  | |- context [match Qle_bool ?a ?b with _ => _ end] =>
      destruct (Qle_bool a b) eqn:?
  | |- context [match meta_path_is_None ?w ?p with _ => _ end] =>
      destruct (meta_path_is_None w p) eqn:?
  | |- context [match logger ?s ?l ?m with _ => _ end] =>
      destruct (logger s l m) eqn:?
  end.

Ltac tidy :=
  rewrite ?orb_false_r, ?andb_false_r, ?andb_true_r;
  cbn -[msg_notice msg_no_loop msg_timeout msg_task_failed msg_error
        fmt_exception String.eqb].

Ltac wait_step :=
  match goal with
  | |- context [wait_for ?c ?t] => destruct (wait_for c t) as [? ?]
  end.

(** All the runs of the finaliser, the wait on [stop()] taken by its result. *)
Ltac run_finaliser :=
  unfold __del__, scheduler_probe, running_branch, idle_branch, _log_task_done,
    log_or_print, logger_call, print, asyncio_get_event_loop, self_stop,
    loop_create_task, task_add_done_callback, asyncio_wait_for,
    loop_run_until_complete, import_sys, task_exception, sys_is_None,
    outcome, events;
  tidy; repeat (first [wait_step | case_step]; tidy).

(** ** Basic facts *)

Lemma wait_for_overrun (c : Coroutine) (timeout : Q) :
  overruns c timeout ->
  wait_for c timeout = mkBounded timeout (Some (Exc asyncio_TimeoutError)).
Proof.
  destruct c as [d r| |d r|d k r]; cbn; intros H; try contradiction;
    [|reflexivity].
  destruct (Qle_bool timeout d) eqn:E; [reflexivity|].
  apply Qle_bool_iff in H. congruence.
Qed.

Lemma log_or_print_report (self : Deployment) (l : level) (m : string) :
  log_or_print self l m = (Ret tt, report self l m).
Proof.
  unfold report, log_or_print, logger_call, print, events.
  destruct (logger self l m); reflexivity.
Qed.

Lemma actions_app (t1 t2 : trace) : actions (t1 ++ t2) = actions t1 ++ actions t2.
Proof.
  unfold actions. apply List.filter_app.
Qed.

Lemma actions_report (self : Deployment) (l : level) (m : string) :
  actions (report self l m) = [].
Proof.
  unfold report, log_or_print, logger_call, print, events.
  destruct (logger self l m); reflexivity.
Qed.

Lemma Qlt_Qle_bool (a b : Q) : (a < b)%Q -> Qle_bool b a = false.
Proof.
  intros H. destruct (Qle_bool b a) eqn:E; [|reflexivity].
  apply Qle_bool_iff in E. exfalso. exact (Qlt_not_le _ _ H E).
Qed.

(** ** The shutdown probe *)

(** With [sys.meta_path] set to [None] while the [sys] module is still
    loaded, the finaliser returns at once and does nothing. *)
Lemma del_silent_when_meta_path_None (self : Deployment) (w : World) :
  sys_unloaded w = false ->
  meta_path_is_None w AtEntry = true ->
  __del__ self w = (Ret tt, []).
Proof.
  intros Hsys H. unfold __del__, import_sys. rewrite Hsys, H. reflexivity.
Qed.

(** Whether the import of line 48 succeeds or not, with [sys.meta_path] set
    to [None] nothing is logged or printed and [asyncio] is not called. *)
Lemma del_does_nothing_when_meta_path_None (self : Deployment) (w : World) :
  meta_path_is_None w AtEntry = true ->
  events (__del__ self w) = [].
Proof.
  intros H. unfold __del__, import_sys, events. rewrite H.
  destruct (sys_unloaded w); reflexivity.
Qed.

(** C3: at the teardown of the interpreter the finaliser does not return
    silently.  Once the interpreter has unloaded its modules and set
    [sys.meta_path] to [None], the [import sys] of line 48, which runs
    before the probe of line 49, raises [ImportError]; the probe is never
    read and [__del__] raises to its caller.  Nothing is logged and
    [asyncio] is not called. *)
Theorem del_raises_import_error_at_teardown :
  meta_path_is_None world_teardown AtEntry = true /\
  sys_unloaded world_teardown = true /\
  __del__ (running_deployment Hangs) world_teardown =
    (Raise (Exc sys_import_error), []).
Proof.
  repeat split.
Qed.

(** ** The debug notice *)

(** C7: once the shutdown probe is passed, the first thing the finaliser
    does is emit the debug notice, and the scheduler probe
    ([asyncio.get_event_loop()]) comes right after it.  When the logger
    returns, the notice is the logger's debug record; when the logger raises,
    the notice is printed instead and the finaliser still goes on to the
    scheduler probe. *)
Theorem del_notice_then_scheduler_probe (self : Deployment) (w : World) :
  meta_path_is_None w AtEntry = false ->
  (logger self DEBUG msg_notice = None ->
   exists rest,
     events (__del__ self w) = Log DEBUG msg_notice :: GetEventLoop :: rest) /\
  (forall e, logger self DEBUG msg_notice = Some e ->
   exists rest,
     events (__del__ self w) =
       LogFailed DEBUG msg_notice :: Printed msg_notice :: GetEventLoop :: rest).
Proof.
  intros Hup. split; [intros Hlog | intros e Hlog].
  - unfold_finaliser. rewrite Hup, Hlog. tidy.
    repeat (case_step; tidy); eexists; reflexivity.
  - unfold_finaliser. rewrite Hup, Hlog. tidy.
    repeat (case_step; tidy); eexists; reflexivity.
Qed.

Lemma del_notice_then_scheduler_probe_witness :
  (exists rest,
     events (__del__ (running_deployment Hangs) world_idle) =
       Log DEBUG msg_notice :: GetEventLoop :: rest) /\
  (exists rest,
     events (__del__ (mkDeployment Running None missing_logger Hangs) world_idle) =
       LogFailed DEBUG msg_notice :: Printed msg_notice :: GetEventLoop :: rest).
Proof.
  split.
  - apply (del_notice_then_scheduler_probe (running_deployment Hangs) world_idle);
      reflexivity.
  - apply (del_notice_then_scheduler_probe
             (mkDeployment Running None missing_logger Hangs) world_idle
             eq_refl) with (e := mkException (OtherException "AttributeError")
                                   "object has no attribute 'logger'").
    reflexivity.
Defined.

(** ** No event loop *)

(** C6: when the scheduler probe is reached and [asyncio.get_event_loop()]
    raises [RuntimeError] (no loop obtainable), the finaliser returns
    normally; after the notice and the probe it does one thing only, deliver
    the "no event loop" warning (to the logger, or to [print] when the logger
    raises), so exactly one warning and no error is delivered; [stop()] is
    never called and no task or synchronous wait is started. *)
Theorem del_no_loop_one_warning (self : Deployment) (w : World) (e : exception) :
  meta_path_is_None w AtEntry = false ->
  get_event_loop w = inl e ->
  exc_class e = RuntimeError ->
  outcome (__del__ self w) = Ret tt /\
  events (__del__ self w) =
    notice self ++ GetEventLoop :: events (log_or_print self WARNING msg_no_loop) /\
  delivered_at WARNING (events (__del__ self w)) = [msg_no_loop] /\
  delivered_at ERROR (events (__del__ self w)) = [] /\
  (logger self WARNING msg_no_loop = None ->
   count (mentions msg_no_loop) (events (__del__ self w)) = 1 /\
   In (Log WARNING msg_no_loop) (events (__del__ self w))) /\
  count is_StopCalled (events (__del__ self w)) = 0 /\
  scheduler_interactions (events (__del__ self w)) = 0.
Proof.
  intros Hup Hloop Hcls. destruct e as [c s]; cbn in Hcls; subst c.
  unfold notice, scheduler_interactions, delivered_at, count.
  unfold_finaliser. rewrite Hup, Hloop. tidy.
  destruct (logger self DEBUG msg_notice) eqn:Hd;
    destruct (logger self WARNING msg_no_loop) eqn:Hw; cbn;
    repeat split; try reflexivity; try discriminate; intros; auto.
Qed.

Lemma del_no_loop_one_warning_witness :
  outcome (__del__ (running_deployment Hangs) world_no_loop) = Ret tt /\
  delivered_at WARNING (events (__del__ (running_deployment Hangs) world_no_loop))
    = [msg_no_loop] /\
  count is_StopCalled (events (__del__ (running_deployment Hangs) world_no_loop)) = 0.
Proof.
  destruct (del_no_loop_one_warning (running_deployment Hangs) world_no_loop
              no_current_loop eq_refl eq_refl eq_refl)
    as (Hret & _ & Hwarn & _ & _ & Hstop & _).
  repeat split; assumption.
Defined.

(** ** At most one branch, at most one stop *)

(** C10: in every invocation, whatever the collaborators answer, [stop()] is
    called at most once, at most one task is created, at most one
    synchronous wait is run, and at most one of the three scheduler branches
    (no loop, running loop, idle loop) is entered.  This covers the runs that
    end in a timeout or in any other failure: they too show a single
    [stop()] call. *)
Theorem del_single_branch_single_stop (self : Deployment) (w : World) :
  count is_StopCalled (events (__del__ self w)) <= 1 /\
  count is_CreateTask (events (__del__ self w)) <= 1 /\
  count is_RunUntilComplete (events (__del__ self w)) <= 1 /\
  Nat.b2n (took_no_loop (events (__del__ self w))) +
  Nat.b2n (took_running (events (__del__ self w))) +
  Nat.b2n (took_idle (events (__del__ self w))) <= 1.
Proof.
  unfold count, took_no_loop, took_running, took_idle.
  run_finaliser; cbn; repeat split; lia.
Qed.

(** ** The finaliser does not look at the state *)

(** C2, as stated, fails: a deployment in state [Stopped], finalised while
    an idle event loop is obtainable, has [stop()] called and run
    synchronously on the loop; a deployment in state [NotStarted], finalised
    under a running loop, has a task scheduled. *)
Lemma del_stopped_deployment_still_stops :
  state stopped_deployment = Stopped /\
  __del__ stopped_deployment world_idle =
    (Ret tt, [Log DEBUG msg_notice; GetEventLoop; StopCalled; WaitFor 30;
              RunUntilComplete 0]) /\
  scheduler_interactions (events (__del__ stopped_deployment world_idle)) = 1 /\
  state fresh_deployment = NotStarted /\
  __del__ fresh_deployment world_running =
    (Ret tt, [Log DEBUG msg_notice; GetEventLoop; StopCalled; CreateTask;
              AddDoneCallback]) /\
  scheduler_interactions (events (__del__ fresh_deployment world_running)) = 1.
Proof.
  repeat split.
Qed.

(** C2, amended: the finaliser never reads the deployment's state.  Putting
    the deployment in any other state leaves the whole run unchanged.  In
    every state ([Stopped] and [NotStarted] included) [stop()] is called
    once and one call is made to the scheduler when the shutdown probe is
    passed and a loop is obtained, and none otherwise.  On a running loop
    the call is [loop.create_task], and when it does not raise the callback
    is attached to the new task; on a loop that is not running the call is
    [loop.run_until_complete], and when the loop is not closed it blocks for
    as long as the wait on [stop()] under [wait_for] lasts. *)
Theorem del_ignores_state (self : Deployment) (w : World) (s : State) :
  __del__ (with_state s self) w = __del__ self w /\
  count is_StopCalled (events (__del__ self w)) = expected_interactions w /\
  scheduler_interactions (events (__del__ self w)) = expected_interactions w /\
  (forall loop,
     meta_path_is_None w AtEntry = false ->
     get_event_loop w = inr loop ->
     is_running loop = true ->
     count is_CreateTask (events (__del__ self w)) = 1 /\
     count is_RunUntilComplete (events (__del__ self w)) = 0 /\
     (create_task_error loop = None ->
      In AddDoneCallback (events (__del__ self w)))) /\
  (forall loop,
     meta_path_is_None w AtEntry = false ->
     get_event_loop w = inr loop ->
     is_running loop = false ->
     count is_CreateTask (events (__del__ self w)) = 0 /\
     count is_RunUntilComplete (events (__del__ self w)) = 1 /\
     (is_closed loop = false ->
      In (RunUntilComplete (elapsed (wait_for (stop self) 30)))
         (events (__del__ self w)))).
Proof.
  split; [reflexivity|].
  unfold expected_interactions, scheduler_interactions, count.
  split; [|split; [|split]].
  - run_finaliser; reflexivity.
  - run_finaliser; reflexivity.
  - intros loop Hup Hloop Hrun.
    destruct loop as [r ce cl]; cbn in Hrun; subst r.
    unfold_finaliser. rewrite Hup, Hloop. tidy.
    destruct ce; repeat (case_step; tidy);
      (split; [reflexivity | split; [reflexivity|]]);
      intros Hce; try discriminate Hce; cbn; intuition.
  - intros loop Hup Hloop Hidle.
    destruct loop as [r ce cl]; cbn in Hidle; subst r.
    unfold_finaliser. rewrite Hup, Hloop. tidy.
    destruct cl; repeat (case_step; tidy);
      (split; [reflexivity | split; [reflexivity|]]);
      intros Hcl; try discriminate Hcl; cbn; intuition.
Qed.

Lemma del_ignores_state_witness :
  count is_CreateTask (events (__del__ fresh_deployment world_running)) = 1 /\
  In AddDoneCallback (events (__del__ fresh_deployment world_running)) /\
  count is_RunUntilComplete (events (__del__ stopped_deployment world_idle)) = 1.
Proof.
  destruct (del_ignores_state fresh_deployment world_running Stopped)
    as (_ & _ & _ & Hrun & _).
  destruct (del_ignores_state stopped_deployment world_idle Running)
    as (_ & _ & _ & _ & Hidle).
  destruct (Hrun running_loop eq_refl eq_refl eq_refl) as (Hc & _ & Hcb).
  destruct (Hidle idle_loop eq_refl eq_refl eq_refl) as (_ & Hr & _).
  split; [exact Hc | split; [exact (Hcb eq_refl) | exact Hr]].
Defined.

(** ** The idle loop: a synchronous wait under [wait_for] *)

(** C4, as stated, fails.  A [stop()] that needs 40 time units and keeps
    the loop busy meanwhile blocks the finaliser for 40 time units and no
    warning follows; a [stop()] that is cancelled at 30 but takes 5 more to
    end and swallows the cancellation blocks it for 35, again with no
    warning; and on a closed loop [stop()] is not driven at all, the refusal
    of the loop being logged as an error. *)
Lemma del_slow_stop_without_warning :
  __del__ (running_deployment (Blocks 40 None)) world_idle =
    (Ret tt, [Log DEBUG msg_notice; GetEventLoop; StopCalled; WaitFor 30;
              RunUntilComplete 40]) /\
  __del__ (running_deployment (Lingers 40 5 None)) world_idle =
    (Ret tt, [Log DEBUG msg_notice; GetEventLoop; StopCalled; WaitFor 30;
              RunUntilComplete 35]) /\
  __del__ (running_deployment (Finishes 40 None)) world_closed =
    (Ret tt, [Log DEBUG msg_notice; GetEventLoop; StopCalled; WaitFor 30;
              RunUntilComplete 0;
              Log ERROR "Error during __del__ cleanup: Event loop is closed"]).
Proof.
  repeat split.
Qed.

(** C4, amended: when the scheduler probe yields a loop that is not
    running, the finaliser calls [stop()] once, wraps it in [wait_for] with
    timeout 30 once and hands it to [run_until_complete] once; there is no
    second attempt.  Whenever that wait ends in [TimeoutError] on a loop that
    is not closed, the finaliser returns normally and delivers exactly one
    warning and no error, or nothing more if the interpreter is found
    shutting down when the timeout is handled.  A [stop()] that is still at
    work after 30 time units, gives control back to the loop meanwhile and
    ends at once when cancelled makes the wait last exactly 30 and end in
    [TimeoutError]. *)
Theorem del_idle_loop_synchronous_stop
  (self : Deployment) (w : World) (loop : Loop) :
  meta_path_is_None w AtEntry = false ->
  get_event_loop w = inr loop ->
  is_running loop = false ->
  (exists el rest,
     events (__del__ self w) =
       notice self ++ GetEventLoop :: StopCalled :: WaitFor 30 ::
       RunUntilComplete el :: rest) /\
  count is_StopCalled (events (__del__ self w)) = 1 /\
  count is_WaitFor (events (__del__ self w)) = 1 /\
  count is_RunUntilComplete (events (__del__ self w)) = 1 /\
  (is_closed loop = false ->
   wait_times_out (stop self) 30 ->
   outcome (__del__ self w) = Ret tt /\
   events (__del__ self w) =
     notice self ++ [GetEventLoop; StopCalled; WaitFor 30;
                     RunUntilComplete (elapsed (wait_for (stop self) 30))]
       ++ timeout_report self w /\
   delivered_at WARNING (events (__del__ self w)) =
     (if meta_path_is_None w AtTimeout then [] else [msg_timeout]) /\
   delivered_at ERROR (events (__del__ self w)) = []) /\
  (overruns (stop self) 30 ->
   wait_times_out (stop self) 30 /\
   elapsed (wait_for (stop self) 30) = 30%Q).
Proof.
  intros Hup Hloop Hidle.
  destruct loop as [r ce cl]; cbn in Hidle; subst r.
  unfold notice, timeout_report, delivered_at, count.
  repeat match goal with |- _ /\ _ => split end.
  - unfold_finaliser. rewrite Hup, Hloop. tidy.
    repeat (case_step; tidy); do 2 eexists; reflexivity.
  - unfold_finaliser. rewrite Hup, Hloop. tidy.
    repeat (case_step; tidy); reflexivity.
  - unfold_finaliser. rewrite Hup, Hloop. tidy.
    repeat (case_step; tidy); reflexivity.
  - unfold_finaliser. rewrite Hup, Hloop. tidy.
    repeat (case_step; tidy); reflexivity.
  - cbn [is_closed]. intros -> (e & Hraised & Hcls).
    destruct e as [c s]; cbn in Hcls; subst c.
    unfold __del__, scheduler_probe, idle_branch, asyncio_wait_for, self_stop,
      loop_run_until_complete, import_sys, asyncio_get_event_loop.
    rewrite Hup, Hloop. tidy. rewrite Hraised. tidy.
    unfold_finaliser. repeat (case_step; tidy); repeat split; reflexivity.
  - intros Hover. unfold wait_times_out. rewrite (wait_for_overrun _ _ Hover).
    split; [|reflexivity].
    exists asyncio_TimeoutError. split; reflexivity.
Qed.

Lemma del_idle_loop_synchronous_stop_witness :
  outcome (__del__ (running_deployment (Finishes 40 None)) world_idle) = Ret tt /\
  delivered_at WARNING
    (events (__del__ (running_deployment (Finishes 40 None)) world_idle))
  = [msg_timeout] /\
  elapsed (wait_for (stop (running_deployment (Finishes 40 None))) 30) = 30%Q.
Proof.
  destruct (del_idle_loop_synchronous_stop (running_deployment (Finishes 40 None))
              world_idle idle_loop eq_refl eq_refl eq_refl)
    as (_ & _ & _ & _ & Hto & Hover).
  assert (Hslow : overruns (stop (running_deployment (Finishes 40 None))) 30)
    by (cbn; discriminate).
  destruct (Hover Hslow) as (Hwait & Hel).
  destruct (Hto eq_refl Hwait) as (Hret & _ & Hwarn & _).
  split; [exact Hret | split; [exact Hwarn | exact Hel]].
Defined.

(** ** The running loop: a detached task *)

(** C5, as stated, fails on two counts.  Under a running loop whose
    [create_task] raises, no task is scheduled and no callback attached: the
    failure is logged and the finaliser returns.  And the callback does not
    log every outcome: for a task that ended without error it emits
    nothing. *)
Lemma del_running_loop_claim_fails :
  __del__ (running_deployment Hangs) world_running_no_tasks =
    (Ret tt, [Log DEBUG msg_notice; GetEventLoop; StopCalled; CreateTask;
              Log ERROR "Failed to create cleanup task in __del__: Task factory failed"]) /\
  _log_task_done (running_deployment Hangs) world_running TaskReturned = (Ret tt, []).
Proof.
  split; reflexivity.
Qed.

(** C5, amended: when the scheduler probe yields a running loop, the
    finaliser calls [stop()] once and hands the coroutine to
    [loop.create_task] once; it never waits ([wait_for] and
    [run_until_complete] are not called, so no timeout applies) and returns
    normally.  If the task is created, the completion callback is attached
    and nothing else happens; if creating it raises, the failure is
    delivered as an error (nothing is delivered if the interpreter is found
    shutting down).  The callback, for a task that ended without error,
    emits nothing; for a task that ended with an exception it returns
    normally after delivering that exception as one error (to the logger, or
    to [print] when the logger raises); when the interpreter is shutting down
    it does nothing. *)
Theorem del_running_loop_detached_task
  (self : Deployment) (w : World) (loop : Loop) :
  meta_path_is_None w AtEntry = false ->
  get_event_loop w = inr loop ->
  is_running loop = true ->
  outcome (__del__ self w) = Ret tt /\
  count is_StopCalled (events (__del__ self w)) = 1 /\
  count is_CreateTask (events (__del__ self w)) = 1 /\
  count is_WaitFor (events (__del__ self w)) = 0 /\
  count is_RunUntilComplete (events (__del__ self w)) = 0 /\
  (create_task_error loop = None ->
   events (__del__ self w) =
     notice self ++ [GetEventLoop; StopCalled; CreateTask; AddDoneCallback]) /\
  (forall e, create_task_error loop = Some e ->
   events (__del__ self w) =
     notice self ++ [GetEventLoop; StopCalled; CreateTask]
       ++ task_failure_report self w e) /\
  (meta_path_is_None w AtCallback = false ->
   _log_task_done self w TaskReturned = (Ret tt, []) /\
   forall e,
     outcome (_log_task_done self w (TaskFailed e)) = Ret tt /\
     delivered (events (_log_task_done self w (TaskFailed e))) =
       [(ERROR, msg_task_error e)]) /\
  (meta_path_is_None w AtCallback = true ->
   forall t, _log_task_done self w t = (Ret tt, [])).
Proof.
  intros Hup Hloop Hrun.
  destruct loop as [r ce cl]; cbn in Hrun; subst r.
  unfold notice, task_failure_report, msg_task_error, count.
  repeat match goal with |- _ /\ _ => split end.
  - unfold_finaliser. rewrite Hup, Hloop. tidy.
    destruct ce; repeat (case_step; tidy); reflexivity.
  - unfold_finaliser. rewrite Hup, Hloop. tidy.
    destruct ce; repeat (case_step; tidy); reflexivity.
  - unfold_finaliser. rewrite Hup, Hloop. tidy.
    destruct ce; repeat (case_step; tidy); reflexivity.
  - unfold_finaliser. rewrite Hup, Hloop. tidy.
    destruct ce; repeat (case_step; tidy); reflexivity.
  - unfold_finaliser. rewrite Hup, Hloop. tidy.
    destruct ce; repeat (case_step; tidy); reflexivity.
  - cbn [create_task_error]. intros ->. unfold_finaliser. rewrite Hup, Hloop. tidy.
    repeat (case_step; tidy); reflexivity.
  - cbn [create_task_error]. intros e ->. unfold_finaliser. rewrite Hup, Hloop. tidy.
    repeat (case_step; tidy); reflexivity.
  - intros Hcb. unfold_finaliser. rewrite Hcb. cbn. split; [reflexivity|].
    intros e. repeat (case_step; tidy); split; reflexivity.
  - intros Hcb t. unfold_finaliser. rewrite Hcb. reflexivity.
Qed.

Lemma del_running_loop_detached_task_witness :
  outcome (__del__ (running_deployment Hangs) world_running) = Ret tt /\
  events (__del__ (running_deployment Hangs) world_running) =
    notice (running_deployment Hangs)
      ++ [GetEventLoop; StopCalled; CreateTask; AddDoneCallback].
Proof.
  destruct (del_running_loop_detached_task (running_deployment Hangs)
              world_running running_loop eq_refl eq_refl eq_refl)
    as (Hret & _ & _ & _ & _ & Hok & _).
  split; [exact Hret | exact (Hok eq_refl)].
Defined.

(** ** What escapes the finaliser *)

(** The finaliser returns normally whenever the import of line 48
    succeeds, [get_event_loop] fails with nothing but [RuntimeError] and the
    synchronous wait does not end in an exception outside [Exception]: every
    other failure is handled. *)
Lemma del_returns_normally (self : Deployment) (w : World) :
  sys_unloaded w && meta_path_is_None w AtEntry = false ->
  (forall e, get_event_loop w = inl e -> exc_class e = RuntimeError) ->
  (forall b, raised (wait_for (stop self) 30) = Some b ->
             isinstance_Exception b = true) ->
  outcome (__del__ self w) = Ret tt.
Proof.
  intros Himp Hloop Hstop.
  unfold __del__, scheduler_probe, running_branch, idle_branch, log_or_print,
    logger_call, print, asyncio_get_event_loop, self_stop, loop_create_task,
    task_add_done_callback, asyncio_wait_for, loop_run_until_complete,
    import_sys, sys_is_None, outcome.
  rewrite Himp. tidy.
  destruct (get_event_loop w) as [[c s]|loop] eqn:Hw.
  - specialize (Hloop _ eq_refl); cbn in Hloop; subst c.
    repeat (case_step; tidy); reflexivity.
  - destruct (raised (wait_for (stop self) 30)) as [b|] eqn:Hr.
    + specialize (Hstop b eq_refl).
      destruct b; try discriminate Hstop.
      repeat (case_step; tidy); reflexivity.
    + repeat (case_step; tidy); reflexivity.
Qed.

(** C1: the finaliser lets an exception through.  With an idle loop
    obtainable and a [stop()] that ends in [asyncio.CancelledError], the
    synchronous wait raises [CancelledError]; neither
    [except asyncio.TimeoutError] nor [except Exception] matches it, and
    [__del__] raises it to its caller with nothing logged. *)
Theorem del_raises_cancelled_error :
  __del__ (running_deployment cancelled_stop) world_idle =
    (Raise CancelledError,
     [Log DEBUG msg_notice; GetEventLoop; StopCalled; WaitFor 30;
      RunUntilComplete 0]).
Proof.
  reflexivity.
Qed.

(** The probe for the event loop has one handler, for [RuntimeError]; any
    other failure of [asyncio.get_event_loop()] leaves the finaliser too. *)
Lemma del_raises_probe_failure (self : Deployment) (w : World) (name s : string) :
  meta_path_is_None w AtEntry = false ->
  get_event_loop w = inl (mkException (OtherException name) s) ->
  outcome (__del__ self w) = Raise (Exc (mkException (OtherException name) s)).
Proof.
  intros Hup Hloop. unfold_finaliser. rewrite Hup, Hloop. tidy.
  repeat (case_step; tidy); reflexivity.
Qed.

(** ** What escapes the completion callback *)

(** The callback returns normally for every task that was not cancelled. *)
Lemma log_task_done_returns (self : Deployment) (w : World) (t : Task) :
  t <> TaskCancelled ->
  outcome (_log_task_done self w t) = Ret tt.
Proof.
  intros Ht. unfold_finaliser.
  destruct t; [| |contradiction]; repeat (case_step; tidy); reflexivity.
Qed.

(** C9: the completion callback raises on a cancelled task.
    [t.exception()] raises [asyncio.CancelledError] there, which
    [except Exception: pass] does not catch; the callback ends by raising it,
    having logged nothing. *)
Theorem log_task_done_raises_on_cancelled_task :
  meta_path_is_None world_running AtCallback = false /\
  _log_task_done (running_deployment Hangs) world_running TaskCancelled =
    (Raise CancelledError, []).
Proof.
  split; reflexivity.
Qed.

(** ** Access to the runtime *)

(** C8: for a deployment whose state is not [Running], the [runtime]
    accessor and [is_alive] (with or without a timeout) both fail, and with
    the same error, [DeploymentNotStartedError]. *)
Theorem runtime_and_is_alive_need_running (self : Deployment) :
  state self <> Running ->
  runtime self = inl DeploymentNotStartedError /\
  forall timeout, is_alive self timeout = inl DeploymentNotStartedError.
Proof.
  intros Hstate.
  assert (Hrt : runtime self = inl DeploymentNotStartedError).
  { unfold runtime. destruct (state self); try reflexivity. contradiction. }
  split; [exact Hrt|].
  intros timeout. unfold is_alive. rewrite Hrt. reflexivity.
Qed.

Lemma after_stop_not_running (self : Deployment) :
  state (after_stop self) <> Running.
Proof.
  unfold after_stop. destruct (state self) eqn:E; cbn; congruence.
Qed.

Lemma runtime_and_is_alive_need_running_witness :
  (runtime fresh_deployment = inl DeploymentNotStartedError /\
   forall timeout, is_alive fresh_deployment timeout = inl DeploymentNotStartedError) /\
  (runtime (after_stop (running_deployment Hangs)) = inl DeploymentNotStartedError /\
   forall timeout,
     is_alive (after_stop (running_deployment Hangs)) timeout
     = inl DeploymentNotStartedError).
Proof.
  split.
  - apply (runtime_and_is_alive_need_running fresh_deployment). discriminate.
  - apply (runtime_and_is_alive_need_running (after_stop (running_deployment Hangs))).
    discriminate.
Defined.

(** ** The idle loop: how each end of [stop()] is reported *)

(** X1: under an idle loop that is not closed, a [stop()] that gives
    control back to the loop and ends before the 30 time units are over by
    raising an [Exception] other than a timeout makes the finaliser return
    normally; it blocks for the duration of [stop()], delivers the failure as
    exactly one error whose text is "Error during __del__ cleanup: " followed
    by [str(e)], and delivers no warning.  If the interpreter is found
    shutting down in the handler, nothing is delivered. *)
Theorem del_idle_loop_reports_stop_failure
  (self : Deployment) (w : World) (loop : Loop) (d : Q) (e : exception) :
  meta_path_is_None w AtEntry = false ->
  get_event_loop w = inr loop ->
  is_running loop = false ->
  is_closed loop = false ->
  stop self = Finishes d (Some (Exc e)) ->
  (d < 30)%Q ->
  exc_class e <> TimeoutError ->
  outcome (__del__ self w) = Ret tt /\
  events (__del__ self w) =
    notice self ++ [GetEventLoop; StopCalled; WaitFor 30; RunUntilComplete d]
      ++ error_report self w (Exc e) /\
  delivered_at ERROR (events (__del__ self w)) =
    (if meta_path_is_None w AtError then []
     else [("Error during __del__ cleanup: " ++ exc_str e)%string]) /\
  delivered_at WARNING (events (__del__ self w)) = [].
Proof.
  intros Hup Hloop Hidle Hopen Hstop Hlt Hcls.
  destruct loop as [r ce cl]; cbn in Hidle, Hopen; subst r cl.
  destruct e as [c s].
  assert (Hto : isinstance_TimeoutError (Exc (mkException c s)) = false)
    by (destruct c; [reflexivity | exfalso; apply Hcls; reflexivity | reflexivity]).
  unfold notice, error_report, delivered_at.
  unfold_finaliser. rewrite Hup, Hloop, Hstop. tidy.
  rewrite (Qlt_Qle_bool _ _ Hlt). tidy.
  cbn in Hto. rewrite Hto. tidy.
  repeat (case_step; tidy); repeat split; reflexivity.
Qed.

Lemma del_idle_loop_reports_stop_failure_witness :
  outcome (__del__ (running_deployment (Finishes 2 (Some (Exc connection_lost))))
             world_idle) = Ret tt /\
  delivered_at ERROR
    (events (__del__ (running_deployment (Finishes 2 (Some (Exc connection_lost))))
               world_idle))
  = ["Error during __del__ cleanup: connection lost"].
Proof.
  destruct (del_idle_loop_reports_stop_failure
              (running_deployment (Finishes 2 (Some (Exc connection_lost))))
              world_idle idle_loop 2 connection_lost
              eq_refl eq_refl eq_refl eq_refl eq_refl eq_refl)
    as (Hret & _ & Herr & _).
  - discriminate.
  - split; assumption.
Defined.

(** X2: under an idle loop that is not closed, a [stop()] that gives
    control back to the loop and ends without error before the 30 time units
    are over makes the finaliser return normally after blocking for exactly
    the duration of [stop()]; apart from the debug notice nothing is
    delivered, and none of the later shutdown probes is consulted. *)
Theorem del_idle_loop_clean_stop
  (self : Deployment) (w : World) (loop : Loop) (d : Q) :
  meta_path_is_None w AtEntry = false ->
  get_event_loop w = inr loop ->
  is_running loop = false ->
  is_closed loop = false ->
  stop self = Finishes d None ->
  (d < 30)%Q ->
  __del__ self w =
    (Ret tt,
     notice self ++ [GetEventLoop; StopCalled; WaitFor 30; RunUntilComplete d]) /\
  delivered_at WARNING (events (__del__ self w)) = [] /\
  delivered_at ERROR (events (__del__ self w)) = [].
Proof.
  intros Hup Hloop Hidle Hopen Hstop Hlt.
  destruct loop as [r ce cl]; cbn in Hidle, Hopen; subst r cl.
  unfold notice, delivered_at.
  unfold_finaliser. rewrite Hup, Hloop, Hstop. tidy.
  rewrite (Qlt_Qle_bool _ _ Hlt). tidy.
  repeat (case_step; tidy); repeat split; reflexivity.
Qed.

Lemma del_idle_loop_clean_stop_witness :
  __del__ (running_deployment (Finishes 2 None)) world_idle =
    (Ret tt,
     notice (running_deployment (Finishes 2 None))
       ++ [GetEventLoop; StopCalled; WaitFor 30; RunUntilComplete 2]).
Proof.
  destruct (del_idle_loop_clean_stop (running_deployment (Finishes 2 None))
              world_idle idle_loop 2
              eq_refl eq_refl eq_refl eq_refl eq_refl eq_refl) as (H & _).
  exact H.
Defined.

(** X3: the finaliser cannot tell the deadline of its own wait from a
    timeout raised inside [stop()].  Under an idle loop that is not closed,
    a [stop()] that itself raises [TimeoutError] after [d] time units, [d]
    less than 30, is reported by the warning "Timeout during __del__ cleanup
    (30s), forcing exit" although the wait lasted [d]; the text of the
    exception is dropped and no error is delivered. *)
Theorem del_inner_timeout_reported_as_deadline
  (self : Deployment) (w : World) (loop : Loop) (d : Q) (e : exception) :
  meta_path_is_None w AtEntry = false ->
  meta_path_is_None w AtTimeout = false ->
  get_event_loop w = inr loop ->
  is_running loop = false ->
  is_closed loop = false ->
  stop self = Finishes d (Some (Exc e)) ->
  (d < 30)%Q ->
  exc_class e = TimeoutError ->
  outcome (__del__ self w) = Ret tt /\
  events (__del__ self w) =
    notice self ++ [GetEventLoop; StopCalled; WaitFor 30; RunUntilComplete d]
      ++ events (log_or_print self WARNING msg_timeout) /\
  delivered_at WARNING (events (__del__ self w)) = [msg_timeout] /\
  delivered_at ERROR (events (__del__ self w)) = [].
Proof.
  intros Hup Hto Hloop Hidle Hopen Hstop Hlt Hcls.
  destruct loop as [r ce cl]; cbn in Hidle, Hopen; subst r cl.
  destruct e as [c s]; cbn in Hcls; subst c.
  unfold notice, delivered_at.
  unfold_finaliser. rewrite Hup, Hloop, Hstop. tidy.
  rewrite (Qlt_Qle_bool _ _ Hlt). tidy.
  rewrite Hto. tidy.
  repeat (case_step; tidy); repeat split; reflexivity.
Qed.

Lemma del_inner_timeout_reported_as_deadline_witness :
  delivered_at WARNING
    (events (__del__ (running_deployment (Finishes 2 (Some (Exc inner_timeout))))
               world_idle))
  = [msg_timeout].
Proof.
  destruct (del_inner_timeout_reported_as_deadline
              (running_deployment (Finishes 2 (Some (Exc inner_timeout))))
              world_idle idle_loop 2 inner_timeout
              eq_refl eq_refl eq_refl eq_refl eq_refl eq_refl eq_refl eq_refl)
    as (_ & _ & H & _).
  exact H.
Defined.

(** ** What the finaliser writes, in every run *)

(** X4: [print] is a fallback and nothing else.  In every run of the
    finaliser and of the completion callback, each logger call that raised
    is followed at once by the [print] of the very same message, and nothing
    is printed otherwise; so with a logger that never raises nothing is
    printed at all, and no message handed to a failing logger is lost. *)
Theorem print_only_as_fallback (self : Deployment) (w : World) (t : Task) :
  print_is_fallback (events (__del__ self w)) = true /\
  print_is_fallback (events (_log_task_done self w t)) = true.
Proof.
  split.
  - run_finaliser; cbn; rewrite ?String.eqb_refl; reflexivity.
  - unfold_finaliser. destruct t; cbn;
      repeat (case_step; tidy); rewrite ?String.eqb_refl; reflexivity.
Qed.

(** X5: in every run the finaliser delivers at most two messages.  If it
    delivers anything, the first message is the debug notice; after it comes
    at most one report, which is a warning or an error and never both. *)
Theorem del_at_most_one_report (self : Deployment) (w : World) :
  (delivered (events (__del__ self w)) = [] \/
   exists rest,
     delivered (events (__del__ self w)) = (DEBUG, msg_notice) :: rest /\
     List.length rest <= 1) /\
  List.length (delivered_at WARNING (events (__del__ self w))) +
  List.length (delivered_at ERROR (events (__del__ self w))) <= 1 /\
  List.length (delivered_at DEBUG (events (__del__ self w))) <= 1.
Proof.
  unfold delivered_at.
  run_finaliser; cbn;
    (split; [first [left; reflexivity
                   | right; eexists; split; [reflexivity | cbn; lia]]
            | split; lia]).
Qed.

(** ** Exactly when the callback raises *)

(** X8: the completion callback raises in exactly one situation: the
    interpreter is not shutting down and the task was cancelled, and what it
    raises is [CancelledError].  What it delivers is decided by the task
    alone: one error carrying the task's exception when the task failed (and
    the interpreter is up), nothing for a task that returned or was
    cancelled. *)
Theorem log_task_done_raises_exactly_when
  (self : Deployment) (w : World) (t : Task) (b : base_exception) :
  (outcome (_log_task_done self w t) = Raise b <->
   meta_path_is_None w AtCallback = false /\ t = TaskCancelled /\
   b = CancelledError) /\
  delivered (events (_log_task_done self w t)) = callback_report w t.
Proof.
  unfold callback_report, msg_task_error. unfold_finaliser.
  destruct t; cbn; repeat (case_step; tidy);
    (split; [|reflexivity]);
    (split;
     [ intros H; first [discriminate H | inversion H; subst; repeat split]
     | intros (Hp & Ht & Hb); first [discriminate | subst; reflexivity] ]).
Qed.

(** ** The logger cannot change the teardown *)

(** X9: a failing logger never changes what the finaliser does.  Two
    deployments with the same [stop()] but arbitrary loggers, finalised in
    the same world, end the same way (return, or the same exception) and
    make the same calls to [asyncio] and [stop()] in the same order; only
    the messages differ. *)
Theorem del_unaffected_by_logger (self self' : Deployment) (w : World) :
  stop self = stop self' ->
  outcome (__del__ self w) = outcome (__del__ self' w) /\
  actions (events (__del__ self w)) = actions (events (__del__ self' w)).
Proof.
  intros Hstop.
  assert (Hcons : forall ev t, is_logging ev = false ->
                               actions (ev :: t) = ev :: actions t)
    by (intros ev t H; unfold actions; cbn; rewrite H; reflexivity).
  unfold __del__, scheduler_probe, running_branch, idle_branch,
    asyncio_get_event_loop, self_stop, loop_create_task,
    task_add_done_callback, asyncio_wait_for, loop_run_until_complete,
    import_sys, sys_is_None, outcome, events.
  rewrite <- Hstop. rewrite !log_or_print_report.
  repeat (first [ rewrite !log_or_print_report
                | wait_step
                | case_step ];
          rewrite ?orb_false_r, ?andb_false_r, ?andb_true_r;
          cbn -[report actions wait_for]);
    (split; [reflexivity|]);
    repeat first [ rewrite actions_app
                 | rewrite actions_report
                 | rewrite Hcons by reflexivity ];
    reflexivity.
Qed.

Lemma del_unaffected_by_logger_witness :
  outcome (__del__ (running_deployment (Finishes 40 None)) world_idle) =
  outcome (__del__ (mkDeployment Running None missing_logger (Finishes 40 None))
             world_idle) /\
  actions (events (__del__ (running_deployment (Finishes 40 None)) world_idle)) =
  actions (events (__del__ (mkDeployment Running None missing_logger
                              (Finishes 40 None)) world_idle)).
Proof.
  apply (del_unaffected_by_logger
           (running_deployment (Finishes 40 None))
           (mkDeployment Running None missing_logger (Finishes 40 None))
           world_idle).
  reflexivity.
Defined.
